(** * init.data.array.basic: the array traversal combinators

    A shallow embedding of the compiled module [init.data.array.basic]
    (file [src/stage0/init/data/array/basic.cpp]) and the proofs of its
    fold, map, zip and list-conversion laws.

    Every compiled function keeps its C symbol as its name here, and its
    parameters keep the names [x_0], [x_1], ... of the C text.  A
    [goto _start] loop is a recursive function whose arguments are the loop
    variables.  Reference counting ([lean::inc], [lean::dec]) has no
    counterpart: arrays are values, and a write returns the updated
    array.  Natural numbers are the runtime's unbounded naturals. *)

From Equations Require Import Equations.
From Equations.Prop Require Import Logic.
From stdpp Require Import base option list.
From Stdlib Require Import ZArith.

Set Default Proof Using "Type".

(** ** Data model *)

(** An array object: its slots [0 .. size-1], in index order. *)
Record Array (T : Type) : Type := MkArray { elems : list T }.
Arguments MkArray {T} _.
Arguments elems {T} _.

(** The persistent list; tag 0 is [nil], tag 1 with two fields is
    [cons head tail]. *)
Abbreviation List := list (only parsing).

(** ** The runtime primitives ([runtime/object.h], namespace [lean]) *)

Module lean.

Definition nat_add (n m : nat) : nat := n + m.
Definition nat_sub (n m : nat) : nat := n - m.
Definition nat_dec_eq (n m : nat) : bool := Nat.eqb n m.
Definition nat_dec_lt (n m : nat) : bool := Nat.ltb n m.
Definition nat_dec_le (n m : nat) : bool := Nat.leb n m.

Section Primitives.
Context {T : Type}.

(** Modelled from the spec: [makeEmpty() -> Array], the constructor of
    the array of length 0; the runtime header is not part of the
    sources. *)
Definition mk_nil_array : Array T := MkArray [].

(** Modelled from the spec: [length(a) -> size_t], the current element
    count; the runtime header is not part of the sources. *)
Definition array_get_size (a : Array T) : nat := length (elems a).

(** Modelled from the spec: [length(a)] again; [array_sz] is the variant
    of [array_get_size] that consumes its argument. *)
Definition array_sz (a : Array T) : nat := length (elems a).

(** Modelled from the spec: [read(a, i) -> T], precondition
    [i < length(a)], undefined otherwise: [None] stands for the
    undefined read. *)
Definition array_read (a : Array T) (i : nat) : option T := elems a !! i.

(** Modelled from the spec: [write(a, i, v) -> Array], precondition
    [i < length(a)]: the array with slot [i] replaced; [None] stands
    for the write outside the precondition. *)
Definition array_write (a : Array T) (i : nat) (v : T) : option (Array T) :=
  if decide (i < length (elems a))
  then Some (MkArray (<[i:=v]> (elems a)))
  else None.

(** Modelled from the spec: [push(a, v) -> Array], appends [v]. *)
Definition array_push (a : Array T) (v : T) : Array T :=
  MkArray (elems a ++ [v]).
End Primitives.

End lean.

(** [l_array_nil___closed__1], initialised to [lean::mk_nil_array ()]. *)
Definition l_array_nil___closed__1 {T : Type} : Array T := lean.mk_nil_array.

(** ** Forward traversal *)

Section Forward.
Context {A B : Type}.

(** The loop of [iterate]: [x_0] the array, [x_1] the callable, [x_2] the
    index, [x_3] the accumulator.  The size of [x_0] is read again on
    every turn. *)
Equations? l___private_init_data_array_basic_1__iterate__aux___main___rarg
    (x_0 : Array A) (x_1 : nat -> A -> B -> B) (x_2 : nat) (x_3 : B) : option B
  by wf (lean.array_sz x_0 - x_2) lt :=
l___private_init_data_array_basic_1__iterate__aux___main___rarg x_0 x_1 x_2 x_3
  with inspect (lean.nat_dec_lt x_2 (lean.array_sz x_0)) := {
  | exist _ false _ => Some x_3
  | exist _ true x_6 with lean.array_read x_0 x_2 := {
    | None => None
    | Some x_13 =>
        l___private_init_data_array_basic_1__iterate__aux___main___rarg
          x_0 x_1 (lean.nat_add x_2 1) (x_1 x_2 x_13 x_3) } }.
Proof.
  unfold lean.nat_dec_lt, lean.nat_add in *.
  apply Nat.ltb_lt in x_6. lia.
Qed.

Definition l_array_iterate___rarg
    (x_0 : Array A) (x_1 : B) (x_2 : nat -> A -> B -> B) : option B :=
  l___private_init_data_array_basic_1__iterate__aux___main___rarg x_0 x_2 0 x_1.

End Forward.

Section ForwardFold.
Context {A B : Type}.

(** The loop of [iterate] specialised to [foldl]: [x_1] the function,
    [x_2] the array, [x_3] the index, [x_4] the accumulator; [x_0] is
    not read. *)
Equations? l___private_init_data_array_basic_1__iterate__aux___main___at_array_foldl___spec__1___rarg
    (x_0 : Array A) (x_1 : A -> B -> B) (x_2 : Array A) (x_3 : nat) (x_4 : B)
    : option B
  by wf (lean.array_sz x_2 - x_3) lt :=
l___private_init_data_array_basic_1__iterate__aux___main___at_array_foldl___spec__1___rarg
    x_0 x_1 x_2 x_3 x_4
  with inspect (lean.nat_dec_lt x_3 (lean.array_sz x_2)) := {
  | exist _ false _ => Some x_4
  | exist _ true x_7 with lean.array_read x_2 x_3 := {
    | None => None
    | Some x_14 =>
        l___private_init_data_array_basic_1__iterate__aux___main___at_array_foldl___spec__1___rarg
          x_0 x_1 x_2 (lean.nat_add x_3 1) (x_1 x_14 x_4) } }.
Proof.
  unfold lean.nat_dec_lt, lean.nat_add in *.
  apply Nat.ltb_lt in x_7. lia.
Qed.

Definition l_array_foldl___rarg
    (x_0 : Array A) (x_1 : B) (x_2 : A -> B -> B) : option B :=
  l___private_init_data_array_basic_1__iterate__aux___main___at_array_foldl___spec__1___rarg
    x_0 x_2 x_0 0 x_1.

End ForwardFold.

(** ** Reverse traversal *)

(** The fourth argument of the reverse loops carries no data: it is
    [lean::box(0)] at entry and is overwritten with the array afterwards,
    and no loop reads it. *)
Inductive irrelevant (T : Type) : Type :=
| box_0 : irrelevant T
| obj_of : Array T -> irrelevant T.
Arguments box_0 {T}.
Arguments obj_of {T} _.

Section Reverse.
Context {A B : Type}.

(** The loop of [rev_iterate]: [x_0] the array, [x_1] the callable, [x_2]
    the counter, [x_4] the accumulator.  The size is not read here. *)
Equations? l___private_init_data_array_basic_2__rev__iterate__aux___main___rarg
    (x_0 : Array A) (x_1 : nat -> A -> B -> B) (x_2 : nat)
    (x_3 : irrelevant A) (x_4 : B) : option B
  by wf x_2 lt :=
l___private_init_data_array_basic_2__rev__iterate__aux___main___rarg x_0 x_1 x_2 x_3 x_4
  with inspect (lean.nat_dec_eq x_2 0) := {
  | exist _ true _ => Some x_4
  | exist _ false x_6 with lean.array_read x_0 (lean.nat_sub x_2 1) := {
    | None => None
    | Some x_10 =>
        l___private_init_data_array_basic_2__rev__iterate__aux___main___rarg
          x_0 x_1 (lean.nat_sub x_2 1) (obj_of x_0)
          (x_1 (lean.nat_sub x_2 1) x_10 x_4) } }.
Proof.
  unfold lean.nat_dec_eq, lean.nat_sub in *.
  apply Nat.eqb_neq in x_6. lia.
Qed.

Definition l_array_rev__iterate___rarg
    (x_0 : Array A) (x_1 : B) (x_2 : nat -> A -> B -> B) : option B :=
  l___private_init_data_array_basic_2__rev__iterate__aux___main___rarg
    x_0 x_2 (lean.array_get_size x_0) box_0 x_1.

(** The reverse loop specialised to [rev_foldl]: [x_1] the function, [x_2]
    the array, [x_3] the counter, [x_5] the accumulator. *)
Equations? l___private_init_data_array_basic_2__rev__iterate__aux___main___at_array_rev__foldl___spec__1___rarg
    (x_0 : Array A) (x_1 : A -> B -> B) (x_2 : Array A) (x_3 : nat)
    (x_4 : irrelevant A) (x_5 : B) : option B
  by wf x_3 lt :=
l___private_init_data_array_basic_2__rev__iterate__aux___main___at_array_rev__foldl___spec__1___rarg
    x_0 x_1 x_2 x_3 x_4 x_5
  with inspect (lean.nat_dec_eq x_3 0) := {
  | exist _ true _ => Some x_5
  | exist _ false x_7 with lean.array_read x_2 (lean.nat_sub x_3 1) := {
    | None => None
    | Some x_11 =>
        l___private_init_data_array_basic_2__rev__iterate__aux___main___at_array_rev__foldl___spec__1___rarg
          x_0 x_1 x_2 (lean.nat_sub x_3 1) (obj_of x_0) (x_1 x_11 x_5) } }.
Proof.
  unfold lean.nat_dec_eq, lean.nat_sub in *.
  apply Nat.eqb_neq in x_7. lia.
Qed.

Definition l_array_rev__foldl___rarg
    (x_0 : Array A) (x_1 : B) (x_2 : A -> B -> B) : option B :=
  l___private_init_data_array_basic_2__rev__iterate__aux___main___at_array_rev__foldl___spec__1___rarg
    x_0 x_2 x_0 (lean.array_get_size x_0) box_0 x_1.

End Reverse.

(** ** The list bridge *)

Section ListBridge.
Context {A : Type}.

(** The reverse loop specialised to [to_list]: [x_1] the array, [x_2] the
    counter, [x_4] the list built so far; each turn allocates one
    constructor object of tag 1 (a cons cell) holding the element read
    and the list so far. *)
Equations? l___private_init_data_array_basic_2__rev__iterate__aux___main___at_array_to__list___spec__1___rarg
    (x_0 : Array A) (x_1 : Array A) (x_2 : nat) (x_3 : irrelevant A)
    (x_4 : List A) : option (List A)
  by wf x_2 lt :=
l___private_init_data_array_basic_2__rev__iterate__aux___main___at_array_to__list___spec__1___rarg
    x_0 x_1 x_2 x_3 x_4
  with inspect (lean.nat_dec_eq x_2 0) := {
  | exist _ true _ => Some x_4
  | exist _ false x_6 with lean.array_read x_1 (lean.nat_sub x_2 1) := {
    | None => None
    | Some x_10 =>
        l___private_init_data_array_basic_2__rev__iterate__aux___main___at_array_to__list___spec__1___rarg
          x_0 x_1 (lean.nat_sub x_2 1) (obj_of x_0) (x_10 :: x_4) } }.
Proof.
  unfold lean.nat_dec_eq, lean.nat_sub in *.
  apply Nat.eqb_neq in x_6. lia.
Qed.

Definition l_array_to__list___rarg (x_0 : Array A) : option (List A) :=
  l___private_init_data_array_basic_2__rev__iterate__aux___main___at_array_to__list___spec__1___rarg
    x_0 x_0 (lean.array_get_size x_0) box_0 [].

(** [list.to_array_aux]: walks the list [x_0], pushing each head onto the
    array [x_1]. *)
Fixpoint l_list_to__array__aux___main___rarg (x_0 : List A) (x_1 : Array A)
    : Array A :=
  match x_0 with
  | [] => x_1
  | x_2 :: x_4 =>
      l_list_to__array__aux___main___rarg x_4 (lean.array_push x_1 x_2)
  end.

Definition l_list_to__array___rarg (x_0 : List A) : Array A :=
  l_list_to__array__aux___main___rarg x_0 l_array_nil___closed__1.

End ListBridge.

(** ** Element-wise combinators *)

Section ElementWise.
Context {A : Type}.

(** The loop of [iterate] specialised to [foreach]: [x_1] the function of
    index and element, [x_2] the array read, [x_3] the index, [x_4] the
    array written. *)
Equations? l___private_init_data_array_basic_1__iterate__aux___main___at_array_foreach___spec__1___rarg
    (x_0 : Array A) (x_1 : nat -> A -> A) (x_2 : Array A) (x_3 : nat)
    (x_4 : Array A) : option (Array A)
  by wf (lean.array_sz x_2 - x_3) lt :=
l___private_init_data_array_basic_1__iterate__aux___main___at_array_foreach___spec__1___rarg
    x_0 x_1 x_2 x_3 x_4
  with inspect (lean.nat_dec_lt x_3 (lean.array_sz x_2)) := {
  | exist _ false _ => Some x_4
  | exist _ true x_7 with lean.array_read x_2 x_3 := {
    | None => None
    | Some x_14 with lean.array_write x_4 x_3 (x_1 x_3 x_14) := {
      | None => None
      | Some x_18 =>
          l___private_init_data_array_basic_1__iterate__aux___main___at_array_foreach___spec__1___rarg
            x_0 x_1 x_2 (lean.nat_add x_3 1) x_18 } } }.
Proof.
  unfold lean.nat_dec_lt, lean.nat_add in *.
  apply Nat.ltb_lt in x_7. lia.
Qed.

Definition l_array_foreach___rarg (x_0 : Array A) (x_1 : nat -> A -> A)
    : option (Array A) :=
  l___private_init_data_array_basic_1__iterate__aux___main___at_array_foreach___spec__1___rarg
    x_0 x_1 x_0 0 x_0.

(** The loop of [iterate] specialised to [map]: [x_0] the function, [x_2]
    the array read, [x_3] the index, [x_4] the array written; [x_1] is
    not read. *)
Equations? l___private_init_data_array_basic_1__iterate__aux___main___at_array_map___spec__1___rarg
    (x_0 : A -> A) (x_1 : Array A) (x_2 : Array A) (x_3 : nat)
    (x_4 : Array A) : option (Array A)
  by wf (lean.array_sz x_2 - x_3) lt :=
l___private_init_data_array_basic_1__iterate__aux___main___at_array_map___spec__1___rarg
    x_0 x_1 x_2 x_3 x_4
  with inspect (lean.nat_dec_lt x_3 (lean.array_sz x_2)) := {
  | exist _ false _ => Some x_4
  | exist _ true x_7 with lean.array_read x_2 x_3 := {
    | None => None
    | Some x_14 with lean.array_write x_4 x_3 (x_0 x_14) := {
      | None => None
      | Some x_17 =>
          l___private_init_data_array_basic_1__iterate__aux___main___at_array_map___spec__1___rarg
            x_0 x_1 x_2 (lean.nat_add x_3 1) x_17 } } }.
Proof.
  unfold lean.nat_dec_lt, lean.nat_add in *.
  apply Nat.ltb_lt in x_7. lia.
Qed.

Definition l_array_map___rarg (x_0 : A -> A) (x_1 : Array A)
    : option (Array A) :=
  l___private_init_data_array_basic_1__iterate__aux___main___at_array_map___spec__1___rarg
    x_0 x_1 x_1 0 x_1.

(** The first loop of [map_u_2082]: [x_0] the function, [x_3] the array that
    bounds the loop and gives [x_15], [x_1] the array that gives [x_16],
    [x_4] the index, [x_5] the array written; [x_2] is not read. *)
Equations? l___private_init_data_array_basic_1__iterate__aux___main___at_array_map_u_2082___spec__1___rarg
    (x_0 : A -> A -> A) (x_1 x_2 x_3 : Array A) (x_4 : nat) (x_5 : Array A)
    : option (Array A)
  by wf (lean.array_sz x_3 - x_4) lt :=
l___private_init_data_array_basic_1__iterate__aux___main___at_array_map_u_2082___spec__1___rarg
    x_0 x_1 x_2 x_3 x_4 x_5
  with inspect (lean.nat_dec_lt x_4 (lean.array_sz x_3)) := {
  | exist _ false _ => Some x_5
  | exist _ true x_8 with lean.array_read x_3 x_4 := {
    | None => None
    | Some x_15 with lean.array_read x_1 x_4 := {
      | None => None
      | Some x_16 with lean.array_write x_5 x_4 (x_0 x_16 x_15) := {
        | None => None
        | Some x_19 =>
            l___private_init_data_array_basic_1__iterate__aux___main___at_array_map_u_2082___spec__1___rarg
              x_0 x_1 x_2 x_3 (lean.nat_add x_4 1) x_19 } } } }.
Proof.
  unfold lean.nat_dec_lt, lean.nat_add in *.
  apply Nat.ltb_lt in x_8. lia.
Qed.

(** The second loop of [map_u_2082]: as the first, but [x_16] is read from
    [x_2], and [x_1] is not read. *)
Equations? l___private_init_data_array_basic_1__iterate__aux___main___at_array_map_u_2082___spec__2___rarg
    (x_0 : A -> A -> A) (x_1 x_2 x_3 : Array A) (x_4 : nat) (x_5 : Array A)
    : option (Array A)
  by wf (lean.array_sz x_3 - x_4) lt :=
l___private_init_data_array_basic_1__iterate__aux___main___at_array_map_u_2082___spec__2___rarg
    x_0 x_1 x_2 x_3 x_4 x_5
  with inspect (lean.nat_dec_lt x_4 (lean.array_sz x_3)) := {
  | exist _ false _ => Some x_5
  | exist _ true x_8 with lean.array_read x_3 x_4 := {
    | None => None
    | Some x_15 with lean.array_read x_2 x_4 := {
      | None => None
      | Some x_16 with lean.array_write x_5 x_4 (x_0 x_16 x_15) := {
        | None => None
        | Some x_19 =>
            l___private_init_data_array_basic_1__iterate__aux___main___at_array_map_u_2082___spec__2___rarg
              x_0 x_1 x_2 x_3 (lean.nat_add x_4 1) x_19 } } } }.
Proof.
  unfold lean.nat_dec_lt, lean.nat_add in *.
  apply Nat.ltb_lt in x_8. lia.
Qed.

(** [map_u_2082 f a b] with [x_0 = f], [x_1 = a], [x_2 = b]: the test is
    [size a <= size b]. *)
Definition l_array_map_u_2082___rarg (x_0 : A -> A -> A) (x_1 x_2 : Array A)
    : option (Array A) :=
  if lean.nat_dec_le (lean.array_get_size x_1) (lean.array_get_size x_2)
  then
    l___private_init_data_array_basic_1__iterate__aux___main___at_array_map_u_2082___spec__2___rarg
      x_0 x_1 x_2 x_1 0 x_1
  else
    l___private_init_data_array_basic_1__iterate__aux___main___at_array_map_u_2082___spec__1___rarg
      x_0 x_1 x_2 x_2 0 x_2.

End ElementWise.

(** ** The traversal engines with the other bound discipline

    The two definitions below are not in the compiled module.  They follow
    the specification's description of the alternative discipline, to be
    compared with the compiled loops: a forward loop whose bound is the
    length captured once at entry, and a reverse loop that reads the
    length again before every read. *)

Section OtherDiscipline.
Context {A B : Type}.

(** Forward, counting up to a fixed [bound]. *)
Equations? iterate_aux_length_captured
    (bound : nat) (a : Array A) (f : nat -> A -> B -> B) (i : nat) (acc : B)
    : option B
  by wf (bound - i) lt :=
iterate_aux_length_captured bound a f i acc
  with inspect (lean.nat_dec_lt i bound) := {
  | exist _ false _ => Some acc
  | exist _ true lt_bound with lean.array_read a i := {
    | None => None
    | Some v =>
        iterate_aux_length_captured bound a f (lean.nat_add i 1) (f i v acc) } }.
Proof.
  unfold lean.nat_dec_lt, lean.nat_add in *.
  apply Nat.ltb_lt in lt_bound. lia.
Qed.

(** The length is read once, here. *)
Definition iterate_length_captured
    (a : Array A) (z : B) (f : nat -> A -> B -> B) : option B :=
  let bound := lean.array_sz a in
  iterate_aux_length_captured bound a f 0 z.

(** Reverse, stopping as soon as the index to read is not below the
    length read on that turn. *)
Equations? rev_iterate_aux_length_rechecked
    (a : Array A) (f : nat -> A -> B -> B) (counter : nat) (acc : B)
    : option B
  by wf counter lt :=
rev_iterate_aux_length_rechecked a f counter acc
  with inspect (lean.nat_dec_eq counter 0) := {
  | exist _ true _ => Some acc
  | exist _ false nonzero
      with lean.nat_dec_lt (lean.nat_sub counter 1) (lean.array_sz a) := {
    | false => Some acc
    | true with lean.array_read a (lean.nat_sub counter 1) := {
      | None => None
      | Some v =>
          rev_iterate_aux_length_rechecked a f (lean.nat_sub counter 1)
            (f (lean.nat_sub counter 1) v acc) } } }.
Proof.
  unfold lean.nat_dec_eq, lean.nat_sub in *.
  apply Nat.eqb_neq in nonzero. lia.
Qed.

Definition rev_iterate_length_rechecked
    (a : Array A) (z : B) (f : nat -> A -> B -> B) : option B :=
  rev_iterate_aux_length_rechecked a f (lean.array_get_size a) z.

End OtherDiscipline.

(** ** The remaining functions of the array module *)

Section ArrayRest.
Context {A B : Type}.

(** [array.empty]: the size is compared with 0. *)
Definition l_array_empty___rarg (x_0 : Array A) : bool :=
  if lean.nat_dec_eq (lean.array_get_size x_0) 0 then true else false.

(** [iterate_aux], which enters the forward loop at the index it is given. *)
Definition l___private_init_data_array_basic_1__iterate__aux___rarg
    (x_0 : Array A) (x_1 : nat -> A -> B -> B) (x_2 : nat) (x_3 : B) : option B :=
  l___private_init_data_array_basic_1__iterate__aux___main___rarg x_0 x_1 x_2 x_3.

(** [rev_iterate_aux], which enters the reverse loop at the counter it is
    given; its own fourth argument is dropped for [lean::box(0)]. *)
Definition l___private_init_data_array_basic_2__rev__iterate__aux___rarg
    (x_0 : Array A) (x_1 : nat -> A -> B -> B) (x_2 : nat)
    (x_3 : irrelevant A) (x_4 : B) : option B :=
  l___private_init_data_array_basic_2__rev__iterate__aux___main___rarg
    x_0 x_1 x_2 box_0 x_4.

(** The loop of [iterate] specialised to [foreach_aux]: the same text as
    the loop specialised to [foreach]. *)
Equations? l___private_init_data_array_basic_1__iterate__aux___main___at___private_init_data_array_basic_3__foreach__aux___spec__1___rarg
    (x_0 : Array A) (x_1 : nat -> A -> A) (x_2 : Array A) (x_3 : nat)
    (x_4 : Array A) : option (Array A)
  by wf (lean.array_sz x_2 - x_3) lt :=
l___private_init_data_array_basic_1__iterate__aux___main___at___private_init_data_array_basic_3__foreach__aux___spec__1___rarg
    x_0 x_1 x_2 x_3 x_4
  with inspect (lean.nat_dec_lt x_3 (lean.array_sz x_2)) := {
  | exist _ false _ => Some x_4
  | exist _ true x_7 with lean.array_read x_2 x_3 := {
    | None => None
    | Some x_14 with lean.array_write x_4 x_3 (x_1 x_3 x_14) := {
      | None => None
      | Some x_18 =>
          l___private_init_data_array_basic_1__iterate__aux___main___at___private_init_data_array_basic_3__foreach__aux___spec__1___rarg
            x_0 x_1 x_2 (lean.nat_add x_3 1) x_18 } } }.
Proof.
  unfold lean.nat_dec_lt, lean.nat_add in *.
  apply Nat.ltb_lt in x_7. lia.
Qed.

Definition l___private_init_data_array_basic_3__foreach__aux___rarg
    (x_0 : Array A) (x_1 : nat -> A -> A) : option (Array A) :=
  l___private_init_data_array_basic_1__iterate__aux___main___at___private_init_data_array_basic_3__foreach__aux___spec__1___rarg
    x_0 x_1 x_0 0 x_0.

(** [list.to_array_aux] under its public name. *)
Definition l_list_to__array__aux___rarg (x_0 : List A) (x_1 : Array A) : Array A :=
  l_list_to__array__aux___main___rarg x_0 x_1.

End ArrayRest.

(** ** init.data.char.basic

    The compiled module [init.data.char.basic] (file
    [src/stage0/init/data/char/basic.cpp]).  A [uint32] is a number below
    [2^32], here a binary natural; the module only compares such values
    and masks them, so no operation wraps.  A [uint8] result is a
    boolean. *)

(** The number a 32-bit value stands for, as a natural-number object
    ([lean::uint32_to_nat]). *)
Definition uint32_to_nat (x : N) : nat := N.to_nat x.

Section Char.
Local Open Scope N_scope.

(** [lean::uint32_of_nat], the runtime's conversion of a natural-number
    object to 32 bits; it is not part of the sources and stays a parameter.
    The facts below that depend on it assume what they need about it. *)
Variable uint32_of_nat : nat -> N.

Definition l_char_utf8__size (x_0 : N) : N :=
  let x_1 := 1 in
  let x_2 := 128 in
  let x_3 := N.land x_0 x_2 in
  let x_4 := 0 in
  if N.eqb x_3 x_4 then x_1 else
  let x_6 := 224 in
  let x_7 := N.land x_0 x_6 in
  let x_8 := 192 in
  if N.eqb x_7 x_8 then 2 else
  let x_10 := 240 in
  let x_11 := N.land x_0 x_10 in
  if N.eqb x_11 x_6 then 3 else
  let x_13 := 248 in
  let x_14 := N.land x_0 x_13 in
  if N.eqb x_14 x_10 then 4 else
  let x_16 := 252 in
  let x_17 := N.land x_0 x_16 in
  if N.eqb x_17 x_13 then 5 else
  let x_19 := 6 in
  let x_20 := 254 in
  let x_21 := N.land x_0 x_20 in
  if N.eqb x_21 x_16 then x_19 else
  let x_23 := 255 in
  if N.eqb x_0 x_23 then x_1 else x_4.

Definition l_char_dec__lt (x_0 x_1 : N) : bool := N.ltb x_0 x_1.

Definition l_char_dec__le (x_0 x_1 : N) : bool := N.leb x_0 x_1.

Definition l_char_decidable__eq (x_0 x_1 : N) : bool :=
  if N.eqb x_0 x_1 then true else false.

Definition l_char_of__nat (x_0 : nat) : N :=
  let x_1 := uint32_of_nat x_0 in
  let x_2 := 55296 in
  if N.ltb x_1 x_2 then x_1 else
  let x_4 := 57343 in
  if N.ltb x_4 x_1 then
    let x_7 := 1114112 in
    if N.ltb x_1 x_7 then x_1 else 0
  else 0.

Definition l_char_to__nat (x_0 : N) : nat := uint32_to_nat x_0.

Definition l_char_is__whitespace (x_0 : N) : bool :=
  if N.eqb x_0 32 then true
  else if N.eqb x_0 9 then true
  else if N.eqb x_0 10 then true
  else false.

Definition l_char_is__upper (x_0 : N) : bool :=
  if N.leb 65 x_0 then (if N.leb x_0 90 then true else false) else false.

Definition l_char_is__lower (x_0 : N) : bool :=
  if N.leb 97 x_0 then (if N.leb x_0 122 then true else false) else false.

Definition l_char_is__alpha (x_0 : N) : bool :=
  let x_1 := l_char_is__upper x_0 in
  if x_1 then x_1 else l_char_is__lower x_0.

Definition l_char_is__digit (x_0 : N) : bool :=
  if N.leb 48 x_0 then (if N.leb x_0 57 then true else false) else false.

Definition l_char_is__alphanum (x_0 : N) : bool :=
  let x_1 := l_char_is__alpha x_0 in
  if x_1 then x_1 else l_char_is__digit x_0.

Definition l_char_to__lower (x_0 : N) : N :=
  let x_1 := uint32_to_nat x_0 in
  if lean.nat_dec_le 65%nat x_1 then
    if lean.nat_dec_le x_1 90%nat then
      let x_9 := lean.nat_add x_1 32%nat in
      l_char_of__nat x_9
    else x_0
  else x_0.

End Char.

(** What the facts that depend on [lean::uint32_of_nat] assume of it: a
    number that fits 32 bits is converted to itself. *)
Definition exact_below_2_32 (uint32_of_nat : nat -> N) : Prop :=
  forall n : nat, (N.of_nat n < 4294967296)%N -> uint32_of_nat n = N.of_nat n.

(** A conversion to 32 bits that keeps the low 32 bits of the number; it
    serves as an instance of the parameter above. *)
Definition low_32_bits (n : nat) : N := (N.of_nat n mod 4294967296)%N.

(** * Proofs *)

(** ** The loops, one turn at a time

    Each loop satisfies the equation that its C text reads as: the test,
    the reads and writes of one turn, then the loop again. *)

Tactic Notation "one_turn" ident(f) :=
  match goal with
  | |- _ = (if ?c then _ else _) =>
      let E := fresh "E" in
      destruct c eqn:E; simp f;
      match goal with
      | |- context [inspect ?d] =>
          let e := fresh "e" in
          destruct (inspect d) as [[] e]; simpl; [ | ]; try congruence
      end
  end;
  repeat (case_match; simpl); reflexivity.

Section Turns.
Context {A B : Type}.

Lemma iterate_aux_turn (x_0 : Array A) (x_1 : nat -> A -> B -> B) x_2 x_3 :
  l___private_init_data_array_basic_1__iterate__aux___main___rarg x_0 x_1 x_2 x_3 =
  if lean.nat_dec_lt x_2 (lean.array_sz x_0)
  then match lean.array_read x_0 x_2 with
       | None => None
       | Some x_13 =>
           l___private_init_data_array_basic_1__iterate__aux___main___rarg
             x_0 x_1 (lean.nat_add x_2 1) (x_1 x_2 x_13 x_3)
       end
  else Some x_3.
Proof.
  one_turn l___private_init_data_array_basic_1__iterate__aux___main___rarg.
Qed.

Lemma foldl_aux_turn (x_0 : Array A) (x_1 : A -> B -> B) x_2 x_3 x_4 :
  l___private_init_data_array_basic_1__iterate__aux___main___at_array_foldl___spec__1___rarg
    x_0 x_1 x_2 x_3 x_4 =
  if lean.nat_dec_lt x_3 (lean.array_sz x_2)
  then match lean.array_read x_2 x_3 with
       | None => None
       | Some x_14 =>
           l___private_init_data_array_basic_1__iterate__aux___main___at_array_foldl___spec__1___rarg
             x_0 x_1 x_2 (lean.nat_add x_3 1) (x_1 x_14 x_4)
       end
  else Some x_4.
Proof.
  one_turn l___private_init_data_array_basic_1__iterate__aux___main___at_array_foldl___spec__1___rarg.
Qed.

Lemma rev_iterate_aux_turn (x_0 : Array A) (x_1 : nat -> A -> B -> B) x_2 x_3 x_4 :
  l___private_init_data_array_basic_2__rev__iterate__aux___main___rarg x_0 x_1 x_2 x_3 x_4 =
  if lean.nat_dec_eq x_2 0
  then Some x_4
  else match lean.array_read x_0 (lean.nat_sub x_2 1) with
       | None => None
       | Some x_10 =>
           l___private_init_data_array_basic_2__rev__iterate__aux___main___rarg
             x_0 x_1 (lean.nat_sub x_2 1) (obj_of x_0)
             (x_1 (lean.nat_sub x_2 1) x_10 x_4)
       end.
Proof.
  one_turn l___private_init_data_array_basic_2__rev__iterate__aux___main___rarg.
Qed.

Lemma rev_foldl_aux_turn (x_0 : Array A) (x_1 : A -> B -> B) x_2 x_3 x_4 x_5 :
  l___private_init_data_array_basic_2__rev__iterate__aux___main___at_array_rev__foldl___spec__1___rarg
    x_0 x_1 x_2 x_3 x_4 x_5 =
  if lean.nat_dec_eq x_3 0
  then Some x_5
  else match lean.array_read x_2 (lean.nat_sub x_3 1) with
       | None => None
       | Some x_11 =>
           l___private_init_data_array_basic_2__rev__iterate__aux___main___at_array_rev__foldl___spec__1___rarg
             x_0 x_1 x_2 (lean.nat_sub x_3 1) (obj_of x_0) (x_1 x_11 x_5)
       end.
Proof.
  one_turn l___private_init_data_array_basic_2__rev__iterate__aux___main___at_array_rev__foldl___spec__1___rarg.
Qed.

Lemma to_list_aux_turn (x_0 x_1 : Array A) x_2 x_3 x_4 :
  l___private_init_data_array_basic_2__rev__iterate__aux___main___at_array_to__list___spec__1___rarg
    x_0 x_1 x_2 x_3 x_4 =
  if lean.nat_dec_eq x_2 0
  then Some x_4
  else match lean.array_read x_1 (lean.nat_sub x_2 1) with
       | None => None
       | Some x_10 =>
           l___private_init_data_array_basic_2__rev__iterate__aux___main___at_array_to__list___spec__1___rarg
             x_0 x_1 (lean.nat_sub x_2 1) (obj_of x_0) (x_10 :: x_4)
       end.
Proof.
  one_turn l___private_init_data_array_basic_2__rev__iterate__aux___main___at_array_to__list___spec__1___rarg.
Qed.

Lemma foreach_aux_turn (x_0 : Array A) (x_1 : nat -> A -> A) x_2 x_3 x_4 :
  l___private_init_data_array_basic_1__iterate__aux___main___at_array_foreach___spec__1___rarg
    x_0 x_1 x_2 x_3 x_4 =
  if lean.nat_dec_lt x_3 (lean.array_sz x_2)
  then match lean.array_read x_2 x_3 with
       | None => None
       | Some x_14 =>
           match lean.array_write x_4 x_3 (x_1 x_3 x_14) with
           | None => None
           | Some x_18 =>
               l___private_init_data_array_basic_1__iterate__aux___main___at_array_foreach___spec__1___rarg
                 x_0 x_1 x_2 (lean.nat_add x_3 1) x_18
           end
       end
  else Some x_4.
Proof.
  one_turn l___private_init_data_array_basic_1__iterate__aux___main___at_array_foreach___spec__1___rarg.
Qed.

Lemma map_aux_turn (x_0 : A -> A) (x_1 x_2 : Array A) x_3 x_4 :
  l___private_init_data_array_basic_1__iterate__aux___main___at_array_map___spec__1___rarg
    x_0 x_1 x_2 x_3 x_4 =
  if lean.nat_dec_lt x_3 (lean.array_sz x_2)
  then match lean.array_read x_2 x_3 with
       | None => None
       | Some x_14 =>
           match lean.array_write x_4 x_3 (x_0 x_14) with
           | None => None
           | Some x_17 =>
               l___private_init_data_array_basic_1__iterate__aux___main___at_array_map___spec__1___rarg
                 x_0 x_1 x_2 (lean.nat_add x_3 1) x_17
           end
       end
  else Some x_4.
Proof.
  one_turn l___private_init_data_array_basic_1__iterate__aux___main___at_array_map___spec__1___rarg.
Qed.

Lemma map2_aux1_turn (x_0 : A -> A -> A) (x_1 x_2 x_3 : Array A) x_4 x_5 :
  l___private_init_data_array_basic_1__iterate__aux___main___at_array_map_u_2082___spec__1___rarg
    x_0 x_1 x_2 x_3 x_4 x_5 =
  if lean.nat_dec_lt x_4 (lean.array_sz x_3)
  then match lean.array_read x_3 x_4 with
       | None => None
       | Some x_15 =>
           match lean.array_read x_1 x_4 with
           | None => None
           | Some x_16 =>
               match lean.array_write x_5 x_4 (x_0 x_16 x_15) with
               | None => None
               | Some x_19 =>
                   l___private_init_data_array_basic_1__iterate__aux___main___at_array_map_u_2082___spec__1___rarg
                     x_0 x_1 x_2 x_3 (lean.nat_add x_4 1) x_19
               end
           end
       end
  else Some x_5.
Proof.
  one_turn l___private_init_data_array_basic_1__iterate__aux___main___at_array_map_u_2082___spec__1___rarg.
Qed.

Lemma map2_aux2_turn (x_0 : A -> A -> A) (x_1 x_2 x_3 : Array A) x_4 x_5 :
  l___private_init_data_array_basic_1__iterate__aux___main___at_array_map_u_2082___spec__2___rarg
    x_0 x_1 x_2 x_3 x_4 x_5 =
  if lean.nat_dec_lt x_4 (lean.array_sz x_3)
  then match lean.array_read x_3 x_4 with
       | None => None
       | Some x_15 =>
           match lean.array_read x_2 x_4 with
           | None => None
           | Some x_16 =>
               match lean.array_write x_5 x_4 (x_0 x_16 x_15) with
               | None => None
               | Some x_19 =>
                   l___private_init_data_array_basic_1__iterate__aux___main___at_array_map_u_2082___spec__2___rarg
                     x_0 x_1 x_2 x_3 (lean.nat_add x_4 1) x_19
               end
           end
       end
  else Some x_5.
Proof.
  one_turn l___private_init_data_array_basic_1__iterate__aux___main___at_array_map_u_2082___spec__2___rarg.
Qed.

End Turns.

(** ** The primitives on the slots *)

Section PrimitiveFacts.
Context {T : Type}.
Implicit Types (a : Array T) (i : nat) (v : T).

Lemma array_eq a b : elems a = elems b -> a = b.
Proof. destruct a, b; simpl; congruence. Qed.

Lemma nat_dec_lt_true i a :
  i < length (elems a) -> lean.nat_dec_lt i (lean.array_sz a) = true.
Proof. intros H. apply Nat.ltb_lt. exact H. Qed.

Lemma nat_dec_lt_false i a :
  length (elems a) <= i -> lean.nat_dec_lt i (lean.array_sz a) = false.
Proof. intros H. apply Nat.ltb_ge. exact H. Qed.

Lemma array_read_in_range a i :
  i < length (elems a) -> exists v, lean.array_read a i = Some v.
Proof. intros H. apply lookup_lt_is_Some_2 in H. exact H. Qed.

Lemma array_write_in_range a i v :
  i < length (elems a) ->
  lean.array_write a i v = Some (MkArray (<[i:=v]> (elems a))).
Proof. intros H. unfold lean.array_write. rewrite decide_True; done. Qed.

Lemma array_write_out_of_range a i v :
  length (elems a) <= i -> lean.array_write a i v = None.
Proof. intros H. unfold lean.array_write. rewrite decide_False; [done | lia]. Qed.

Lemma nat_add_1 i : lean.nat_add i 1 = S i.
Proof. unfold lean.nat_add. lia. Qed.

Lemma nat_sub_1 i : lean.nat_sub (S i) 1 = i.
Proof. unfold lean.nat_sub. lia. Qed.

(** Writing slot [i] of a buffer whose slots below [i] are already final
    extends the final part by one slot. *)
Lemma take_S_insert (l : list T) i v :
  i < length l -> take (S i) (<[i:=v]> l) = take i l ++ [v].
Proof.
  intros H.
  rewrite (take_S_r (<[i:=v]> l) i v) by (apply list_lookup_insert_eq; exact H).
  rewrite take_insert_ge by lia. reflexivity.
Qed.
End PrimitiveFacts.

(** ** Folds *)

Section FoldFacts.
Context {A B : Type}.
Implicit Types (f : A -> B -> B) (a : Array A).

(** From index [x_3] on, the forward loop folds the remaining slots, left
    to right, applying [x_1] to the element and then the accumulator. *)
Lemma foldl_aux_from (x_0 : Array A) f x_2 k : forall x_3 x_4,
  length (elems x_2) - x_3 = k ->
  l___private_init_data_array_basic_1__iterate__aux___main___at_array_foldl___spec__1___rarg
    x_0 f x_2 x_3 x_4 =
  Some (fold_left (fun acc v => f v acc) (drop x_3 (elems x_2)) x_4).
Proof.
  induction k as [|k IH]; intros x_3 x_4 Hk; rewrite foldl_aux_turn.
  - rewrite nat_dec_lt_false by lia. rewrite drop_ge by lia. reflexivity.
  - rewrite nat_dec_lt_true by lia.
    destruct (array_read_in_range x_2 x_3) as [v Hv]; [lia|].
    rewrite Hv, nat_add_1, IH by lia.
    rewrite (drop_S _ _ _ Hv). reflexivity.
Qed.

(** Below counter [x_3], the reverse loop folds the first [x_3] slots,
    right to left. *)
Lemma rev_foldl_aux_upto (x_0 : Array A) f x_2 : forall x_3 x_4 x_5,
  x_3 <= length (elems x_2) ->
  l___private_init_data_array_basic_2__rev__iterate__aux___main___at_array_rev__foldl___spec__1___rarg
    x_0 f x_2 x_3 x_4 x_5 =
  Some (foldr f x_5 (take x_3 (elems x_2))).
Proof.
  induction x_3 as [|n IH]; intros x_4 x_5 Hn; rewrite rev_foldl_aux_turn.
  - reflexivity.
  - change (lean.nat_dec_eq (S n) 0) with false. cbv iota.
    rewrite nat_sub_1.
    destruct (array_read_in_range x_2 n) as [v Hv]; [lia|].
    rewrite Hv, IH by lia.
    rewrite (take_S_r _ _ _ Hv), foldr_app. reflexivity.
Qed.
End FoldFacts.

(** ** The list bridge *)

Section BridgeFacts.
Context {A : Type}.

(** Below counter [x_2], the reverse loop conses the first [x_2] slots in
    front of the list built so far. *)
Lemma to_list_aux_upto (x_0 x_1 : Array A) : forall x_2 x_3 x_4,
  x_2 <= length (elems x_1) ->
  l___private_init_data_array_basic_2__rev__iterate__aux___main___at_array_to__list___spec__1___rarg
    x_0 x_1 x_2 x_3 x_4 =
  Some (take x_2 (elems x_1) ++ x_4).
Proof.
  induction x_2 as [|n IH]; intros x_3 x_4 Hn; rewrite to_list_aux_turn.
  - reflexivity.
  - change (lean.nat_dec_eq (S n) 0) with false. cbv iota.
    rewrite nat_sub_1.
    destruct (array_read_in_range x_1 n) as [v Hv]; [lia|].
    rewrite Hv, IH by lia.
    rewrite (take_S_r _ _ _ Hv), <- app_assoc. reflexivity.
Qed.

Lemma to_list_elems (a : Array A) : l_array_to__list___rarg a = Some (elems a).
Proof.
  unfold l_array_to__list___rarg, lean.array_get_size.
  rewrite to_list_aux_upto by lia.
  rewrite take_ge, app_nil_r by lia. reflexivity.
Qed.

Lemma to_array_aux_elems (x_0 : List A) : forall x_1 : Array A,
  elems (l_list_to__array__aux___main___rarg x_0 x_1) = elems x_1 ++ x_0.
Proof.
  induction x_0 as [|x_2 x_4 IH]; intros x_1; simpl.
  - rewrite app_nil_r. reflexivity.
  - rewrite IH. simpl. rewrite <- app_assoc. reflexivity.
Qed.

Lemma to_array_elems (l : List A) : elems (l_list_to__array___rarg l) = l.
Proof. unfold l_list_to__array___rarg. rewrite to_array_aux_elems. reflexivity. Qed.
End BridgeFacts.

(** ** Element-wise combinators *)

Section ElementWiseFacts.
Context {A : Type}.

(** A buffer of the right length whose slots from index [i] on are still
    to be written is final once nothing is left to write. *)
Lemma buffer_done (x_4 : Array A) (rest : list A) i :
  length (elems x_4) <= i -> rest = [] ->
  x_4 = MkArray (take i (elems x_4) ++ rest).
Proof.
  intros Hi ->. apply array_eq. simpl.
  rewrite take_ge, app_nil_r by lia. reflexivity.
Qed.

(** From index [x_3] on, the [map] loop keeps the slots of [x_4] below
    [x_3] and writes [x_0] of each remaining slot of [x_2]. *)
Lemma map_aux_from (x_0 : A -> A) (x_1 x_2 : Array A) k : forall x_3 x_4,
  length (elems x_2) - x_3 = k ->
  length (elems x_4) = length (elems x_2) ->
  l___private_init_data_array_basic_1__iterate__aux___main___at_array_map___spec__1___rarg
    x_0 x_1 x_2 x_3 x_4 =
  Some (MkArray (take x_3 (elems x_4) ++ (x_0 <$> drop x_3 (elems x_2)))).
Proof.
  induction k as [|k IH]; intros x_3 x_4 Hk Hlen; rewrite map_aux_turn.
  - rewrite nat_dec_lt_false by lia. f_equal.
    apply buffer_done; [lia|]. rewrite drop_ge by lia. reflexivity.
  - rewrite nat_dec_lt_true by lia.
    destruct (array_read_in_range x_2 x_3) as [v Hv]; [lia|].
    rewrite Hv, array_write_in_range, nat_add_1 by lia.
    rewrite IH by (simpl; rewrite ?length_insert; lia).
    simpl. rewrite take_S_insert by lia.
    rewrite (drop_S _ _ _ Hv), fmap_cons, <- app_assoc. reflexivity.
Qed.

Lemma map_elems (f : A -> A) (a : Array A) :
  l_array_map___rarg f a = Some (MkArray (f <$> elems a)).
Proof.
  unfold l_array_map___rarg.
  rewrite (map_aux_from f a a (length (elems a))) by lia.
  reflexivity.
Qed.

(** The [foreach] loop: as [map], with the index passed to the function. *)
Lemma foreach_aux_from (x_0 : Array A) (x_1 : nat -> A -> A) (x_2 : Array A) k :
  forall x_3 x_4,
  length (elems x_2) - x_3 = k ->
  length (elems x_4) = length (elems x_2) ->
  l___private_init_data_array_basic_1__iterate__aux___main___at_array_foreach___spec__1___rarg
    x_0 x_1 x_2 x_3 x_4 =
  Some (MkArray (take x_3 (elems x_4)
                 ++ imap (fun j => x_1 (x_3 + j)) (drop x_3 (elems x_2)))).
Proof.
  induction k as [|k IH]; intros x_3 x_4 Hk Hlen; rewrite foreach_aux_turn.
  - rewrite nat_dec_lt_false by lia. f_equal.
    apply buffer_done; [lia|]. rewrite drop_ge by lia. reflexivity.
  - rewrite nat_dec_lt_true by lia.
    destruct (array_read_in_range x_2 x_3) as [v Hv]; [lia|].
    rewrite Hv, array_write_in_range, nat_add_1 by lia.
    rewrite IH by (simpl; rewrite ?length_insert; lia).
    simpl. rewrite take_S_insert by lia.
    rewrite (drop_S _ _ _ Hv), imap_cons, <- app_assoc, Nat.add_0_r.
    rewrite (imap_ext (_ ∘ S) (fun j => x_1 (S x_3 + j)) (drop (S x_3) (elems x_2))).
    + reflexivity.
    + intros j x _. unfold compose. f_equal. lia.
Qed.

Lemma foreach_elems (a : Array A) (f : nat -> A -> A) :
  l_array_foreach___rarg a f = Some (MkArray (imap f (elems a))).
Proof.
  unfold l_array_foreach___rarg.
  rewrite (foreach_aux_from a f a (length (elems a))) by lia.
  reflexivity.
Qed.

(** The first loop of [map_u_2082]: slot [i] receives [x_0] of the slot of
    [x_1] and then the slot of [x_3]; the reads of [x_1] are in range
    because [x_3] is not longer than [x_1]. *)
Lemma map2_aux1_from (x_0 : A -> A -> A) (x_1 x_2 x_3 : Array A) k :
  forall x_4 x_5,
  length (elems x_3) - x_4 = k ->
  length (elems x_5) = length (elems x_3) ->
  length (elems x_3) <= length (elems x_1) ->
  l___private_init_data_array_basic_1__iterate__aux___main___at_array_map_u_2082___spec__1___rarg
    x_0 x_1 x_2 x_3 x_4 x_5 =
  Some (MkArray (take x_4 (elems x_5)
                 ++ zip_with x_0 (drop x_4 (elems x_1)) (drop x_4 (elems x_3)))).
Proof.
  induction k as [|k IH]; intros x_4 x_5 Hk Hlen Hle; rewrite map2_aux1_turn.
  - rewrite nat_dec_lt_false by lia. f_equal.
    apply buffer_done; [lia|].
    rewrite (drop_ge (elems x_3)) by lia. apply zip_with_nil_r.
  - rewrite nat_dec_lt_true by lia.
    destruct (array_read_in_range x_3 x_4) as [x_15 H15]; [lia|].
    destruct (array_read_in_range x_1 x_4) as [x_16 H16]; [lia|].
    rewrite H15, H16, array_write_in_range, nat_add_1 by lia.
    rewrite IH by (simpl; rewrite ?length_insert; lia).
    simpl. rewrite take_S_insert by lia.
    rewrite (drop_S _ _ _ H15), (drop_S _ _ _ H16), <- app_assoc.
    reflexivity.
Qed.

(** The second loop of [map_u_2082]: slot [i] receives [x_0] of the slot of
    [x_2] and then the slot of [x_3]. *)
Lemma map2_aux2_from (x_0 : A -> A -> A) (x_1 x_2 x_3 : Array A) k :
  forall x_4 x_5,
  length (elems x_3) - x_4 = k ->
  length (elems x_5) = length (elems x_3) ->
  length (elems x_3) <= length (elems x_2) ->
  l___private_init_data_array_basic_1__iterate__aux___main___at_array_map_u_2082___spec__2___rarg
    x_0 x_1 x_2 x_3 x_4 x_5 =
  Some (MkArray (take x_4 (elems x_5)
                 ++ zip_with x_0 (drop x_4 (elems x_2)) (drop x_4 (elems x_3)))).
Proof.
  induction k as [|k IH]; intros x_4 x_5 Hk Hlen Hle; rewrite map2_aux2_turn.
  - rewrite nat_dec_lt_false by lia. f_equal.
    apply buffer_done; [lia|].
    rewrite (drop_ge (elems x_3)) by lia. apply zip_with_nil_r.
  - rewrite nat_dec_lt_true by lia.
    destruct (array_read_in_range x_3 x_4) as [x_15 H15]; [lia|].
    destruct (array_read_in_range x_2 x_4) as [x_16 H16]; [lia|].
    rewrite H15, H16, array_write_in_range, nat_add_1 by lia.
    rewrite IH by (simpl; rewrite ?length_insert; lia).
    simpl. rewrite take_S_insert by lia.
    rewrite (drop_S _ _ _ H15), (drop_S _ _ _ H16), <- app_assoc.
    reflexivity.
Qed.

(** [map_u_2082 f a b] when [a] is not longer than [b]: the second loop
    runs over [a], and the function receives the slot of [b] first. *)
Lemma map2_elems_le (f : A -> A -> A) (a b : Array A) :
  length (elems a) <= length (elems b) ->
  l_array_map_u_2082___rarg f a b = Some (MkArray (zip_with f (elems b) (elems a))).
Proof.
  intros Hle. unfold l_array_map_u_2082___rarg, lean.nat_dec_le, lean.array_get_size.
  rewrite (proj2 (Nat.leb_le _ _) Hle).
  rewrite (map2_aux2_from f a b a (length (elems a))) by lia.
  reflexivity.
Qed.

(** [map_u_2082 f a b] when [a] is longer than [b]: the first loop runs
    over [b], and the function receives the slot of [a] first. *)
Lemma map2_elems_gt (f : A -> A -> A) (a b : Array A) :
  length (elems b) < length (elems a) ->
  l_array_map_u_2082___rarg f a b = Some (MkArray (zip_with f (elems a) (elems b))).
Proof.
  intros Hlt. unfold l_array_map_u_2082___rarg, lean.nat_dec_le, lean.array_get_size.
  rewrite (proj2 (Nat.leb_gt _ _) Hlt).
  rewrite (map2_aux1_from f a b b (length (elems b))) by lia.
  reflexivity.
Qed.
End ElementWiseFacts.

(** ** The two bound disciplines *)

Section DisciplineFacts.
Context {A B : Type}.
Implicit Types (a : Array A) (f : nat -> A -> B -> B).

Lemma iterate_aux_length_captured_turn bound a f i (acc : B) :
  iterate_aux_length_captured bound a f i acc =
  if lean.nat_dec_lt i bound
  then match lean.array_read a i with
       | None => None
       | Some v =>
           iterate_aux_length_captured bound a f (lean.nat_add i 1) (f i v acc)
       end
  else Some acc.
Proof. one_turn iterate_aux_length_captured. Qed.

Lemma rev_iterate_aux_length_rechecked_turn a f counter (acc : B) :
  rev_iterate_aux_length_rechecked a f counter acc =
  if lean.nat_dec_eq counter 0
  then Some acc
  else if lean.nat_dec_lt (lean.nat_sub counter 1) (lean.array_sz a)
       then match lean.array_read a (lean.nat_sub counter 1) with
            | None => None
            | Some v =>
                rev_iterate_aux_length_rechecked a f (lean.nat_sub counter 1)
                  (f (lean.nat_sub counter 1) v acc)
            end
       else Some acc.
Proof. one_turn rev_iterate_aux_length_rechecked. Qed.

(** At every index the compiled forward loop and the loop with the
    captured bound agree, when the bound is the length of the array. *)
Lemma iterate_aux_captured_agree a f k : forall i (acc : B),
  length (elems a) - i = k ->
  l___private_init_data_array_basic_1__iterate__aux___main___rarg a f i acc =
  iterate_aux_length_captured (lean.array_sz a) a f i acc.
Proof.
  induction k as [|k IH]; intros i acc Hk;
    rewrite iterate_aux_turn, iterate_aux_length_captured_turn.
  - rewrite nat_dec_lt_false by lia. reflexivity.
  - rewrite nat_dec_lt_true by lia.
    destruct (lean.array_read a i); [|reflexivity].
    rewrite nat_add_1. apply IH. lia.
Qed.

(** Below the length, the compiled reverse loop and the loop that reads
    the length again agree. *)
Lemma rev_iterate_aux_rechecked_agree a f : forall counter x_3 (acc : B),
  counter <= length (elems a) ->
  l___private_init_data_array_basic_2__rev__iterate__aux___main___rarg
    a f counter x_3 acc =
  rev_iterate_aux_length_rechecked a f counter acc.
Proof.
  induction counter as [|n IH]; intros x_3 acc Hn;
    rewrite rev_iterate_aux_turn, rev_iterate_aux_length_rechecked_turn.
  - reflexivity.
  - change (lean.nat_dec_eq (S n) 0) with false. cbv iota.
    rewrite nat_sub_1, nat_dec_lt_true by lia.
    destruct (lean.array_read a n); [|reflexivity].
    apply IH. lia.
Qed.

Lemma rev_iterate_length_rechecked_agree a (z : B) f :
  l_array_rev__iterate___rarg a z f = rev_iterate_length_rechecked a z f.
Proof.
  unfold l_array_rev__iterate___rarg, rev_iterate_length_rechecked.
  apply rev_iterate_aux_rechecked_agree. unfold lean.array_get_size. lia.
Qed.
End DisciplineFacts.

(** * The laws of the module *)

(** C1, as the specification words it, read at [f] = subtraction on the
    integers, [z = 0] and the array [[1; 2; 3]]: the specification's left
    fold [((0 - 1) - 2) - 3] is [-6], while [foldl] returns [2], that is
    [3 - (2 - (1 - 0))]: the function receives the element first. *)
Lemma C1_foldl_accumulator_first_fails :
  l_array_foldl___rarg (MkArray [1; 2; 3]%Z) 0%Z Z.sub = Some 2%Z /\
  fold_left Z.sub [1; 2; 3]%Z 0%Z = (-6)%Z /\
  l_array_foldl___rarg (MkArray [1; 2; 3]%Z) 0%Z Z.sub
    <> Some (fold_left Z.sub [1; 2; 3]%Z 0%Z).
Proof.
  assert (H : l_array_foldl___rarg (MkArray [1; 2; 3]%Z) 0%Z Z.sub = Some 2%Z)
    by (vm_compute; reflexivity).
  split; [exact H | split; [reflexivity | ]].
  rewrite H. simpl. discriminate.
Qed.

(** C1 (amended): for every array [a], initial value [z] and function [f],
    [foldl] returns the left fold over the elements of [a] in index order in
    which each step computes [f element accumulator]:
    [f a[n-1] (... (f a[1] (f a[0] z)))]. *)
Theorem C1_foldl_left_fold {A B : Type} (a : Array A) (z : B) (f : A -> B -> B) :
  l_array_foldl___rarg a z f =
  Some (fold_left (fun accumulator element => f element accumulator) (elems a) z).
Proof.
  unfold l_array_foldl___rarg.
  rewrite (foldl_aux_from a f a (length (elems a))) by lia.
  reflexivity.
Qed.

(** C2, evaluated where the first array is the shorter one: with [f] =
    subtraction, [a = [1]] and [b = [10; 20]], slot 0 of the result holds
    [f b[0] a[0] = 9], not [f a[0] b[0] = -9]. *)
Theorem C2_map2_shorter_first_swaps_arguments :
  l_array_map_u_2082___rarg Z.sub (MkArray [1]%Z) (MkArray [10; 20]%Z)
    = Some (MkArray [(10 - 1)%Z]) /\
  l_array_map_u_2082___rarg Z.sub (MkArray [1]%Z) (MkArray [10; 20]%Z)
    <> Some (MkArray [(1 - 10)%Z]).
Proof.
  assert (H : l_array_map_u_2082___rarg Z.sub (MkArray [1]%Z) (MkArray [10; 20]%Z)
              = Some (MkArray [(10 - 1)%Z])) by (vm_compute; reflexivity).
  split; [exact H | rewrite H; discriminate].
Qed.

(** C3: for all arrays [a] and [b] and every [f], [map_u_2082 f a b] returns
    an array whose length is the minimum of the two lengths; it is not
    longer than [a] and not longer than [b]. *)
Theorem C3_map2_length {A : Type} (f : A -> A -> A) (a b : Array A) :
  exists r,
    l_array_map_u_2082___rarg f a b = Some r /\
    lean.array_get_size r = Nat.min (lean.array_get_size a) (lean.array_get_size b) /\
    lean.array_get_size r <= lean.array_get_size a /\
    lean.array_get_size r <= lean.array_get_size b.
Proof.
  unfold lean.array_get_size.
  destruct (le_lt_dec (length (elems a)) (length (elems b))) as [Hle|Hlt].
  - rewrite (map2_elems_le f a b Hle). eexists; split; [reflexivity|].
    simpl. rewrite length_zip_with. lia.
  - rewrite (map2_elems_gt f a b Hlt). eexists; split; [reflexivity|].
    simpl. rewrite length_zip_with. lia.
Qed.

(** C4: for every array [a], initial value [z] and function [f],
    [rev_foldl] returns the right fold [f a[0] (f a[1] (... (f a[n-1] z)))],
    each step computing [f element accumulator]. *)
Theorem C4_rev_foldl_right_fold {A B : Type} (a : Array A) (z : B) (f : A -> B -> B) :
  l_array_rev__foldl___rarg a z f = Some (fold_right f z (elems a)).
Proof.
  unfold l_array_rev__foldl___rarg, lean.array_get_size.
  rewrite rev_foldl_aux_upto by lia.
  rewrite take_ge by lia. reflexivity.
Qed.

(** C5: for every list [l], converting it to an array and back returns
    [l]. *)
Theorem C5_to_list_to_array {A : Type} (l : List A) :
  l_array_to__list___rarg (l_list_to__array___rarg l) = Some l.
Proof. rewrite to_list_elems, to_array_elems. reflexivity. Qed.

(** C6: for every array [a], converting it to a list and back returns an
    equal array: the same length and the same element at every index. *)
Theorem C6_to_array_to_list {A : Type} (a : Array A) :
  exists l,
    l_array_to__list___rarg a = Some l /\
    l_list_to__array___rarg l = a /\
    lean.array_get_size (l_list_to__array___rarg l) = lean.array_get_size a /\
    forall i, lean.array_read (l_list_to__array___rarg l) i = lean.array_read a i.
Proof.
  exists (elems a). split; [apply to_list_elems|].
  assert (H : l_list_to__array___rarg (elems a) = a)
    by (apply array_eq, to_array_elems).
  rewrite H. auto.
Qed.

(** C7: for every array [a] of length [n], [to_list a] is the list
    [a[0]; ...; a[n-1]] in ascending index order; it is the result of the
    reverse loop itself, started at counter [n] with the empty list, each
    turn of which goes one index down and conses the element read onto the
    list built so far; and [to_list] of the empty array is the empty
    list. *)
Theorem C7_to_list_ascending {A : Type} (a : Array A) :
  (exists l,
     l_array_to__list___rarg a = Some l /\
     length l = lean.array_get_size a /\
     forall i, l !! i = lean.array_read a i) /\
  l_array_to__list___rarg a =
    l___private_init_data_array_basic_2__rev__iterate__aux___main___at_array_to__list___spec__1___rarg
      a a (lean.array_get_size a) box_0 [] /\
  (forall x_0 x_3 x_4,
     l___private_init_data_array_basic_2__rev__iterate__aux___main___at_array_to__list___spec__1___rarg
       x_0 a 0 x_3 x_4 = Some x_4) /\
  (forall x_0 x_3 x_4 n,
     l___private_init_data_array_basic_2__rev__iterate__aux___main___at_array_to__list___spec__1___rarg
       x_0 a (S n) x_3 x_4 =
     match lean.array_read a n with
     | None => None
     | Some x_10 =>
         l___private_init_data_array_basic_2__rev__iterate__aux___main___at_array_to__list___spec__1___rarg
           x_0 a n (obj_of x_0) (x_10 :: x_4)
     end) /\
  l_array_to__list___rarg (@MkArray A []) = Some [].
Proof.
  split; [|split; [|split; [|split]]].
  - exists (elems a). split; [apply to_list_elems|]. split; reflexivity.
  - reflexivity.
  - intros. rewrite to_list_aux_turn. reflexivity.
  - intros. rewrite to_list_aux_turn.
    change (lean.nat_dec_eq (S n) 0) with false. cbv iota.
    rewrite nat_sub_1. reflexivity.
  - apply to_list_elems.
Qed.

(** C8: for every array [a], the empty one included, mapping the identity
    function over [a] returns [a]. *)
Theorem C8_map_id {A : Type} (a : Array A) :
  l_array_map___rarg id a = Some a /\
  l_array_map___rarg id (@MkArray A []) = Some (MkArray []).
Proof.
  split.
  - rewrite map_elems, list_fmap_id. f_equal. apply array_eq. reflexivity.
  - rewrite map_elems. reflexivity.
Qed.

(** C9: for every function and every array [a], [map] and [foreach] each
    return an array whose length is the length of [a]. *)
Theorem C9_map_foreach_preserve_length {A : Type}
    (f : A -> A) (g : nat -> A -> A) (a : Array A) :
  (exists r, l_array_map___rarg f a = Some r /\
             lean.array_get_size r = lean.array_get_size a) /\
  (exists r, l_array_foreach___rarg a g = Some r /\
             lean.array_get_size r = lean.array_get_size a).
Proof.
  split.
  - rewrite map_elems. eexists; split; [reflexivity|].
    unfold lean.array_get_size. simpl. apply length_fmap.
  - rewrite foreach_elems. eexists; split; [reflexivity|].
    unfold lean.array_get_size. simpl. apply length_imap.
Qed.

(** C10: for every array [a], callable [f] and initial accumulator [z], the
    forward engine, which reads the length again before every step, returns
    the same result as the loop that captures the length once at entry and
    counts up to that bound. *)
Theorem C10_iterate_recheck_unobservable {A B : Type}
    (a : Array A) (z : B) (f : nat -> A -> B -> B) :
  l_array_iterate___rarg a z f = iterate_length_captured a z f.
Proof.
  unfold l_array_iterate___rarg, iterate_length_captured.
  apply (iterate_aux_captured_agree a f (length (elems a))). lia.
Qed.

(** * Further laws of the module *)

(** ** The traversal engines in closed form *)

Section EngineFacts.
Context {A B : Type}.
Implicit Types (a : Array A) (f : nat -> A -> B -> B).

(** The slots of an array, each paired with its index. *)
Lemma indexed_lookup (l : list A) i v :
  l !! i = Some v -> imap pair l !! i = Some (i, v).
Proof. intros H. rewrite list_lookup_imap, H. reflexivity. Qed.

(** From index [i] on, the forward loop folds the remaining slots, left to
    right, with their indices. *)
Lemma iterate_aux_from a f k : forall i (acc : B),
  length (elems a) - i = k ->
  l___private_init_data_array_basic_1__iterate__aux___main___rarg a f i acc =
  Some (fold_left (fun acc p => f p.1 p.2 acc) (drop i (imap pair (elems a))) acc).
Proof.
  induction k as [|k IH]; intros i acc Hk; rewrite iterate_aux_turn.
  - rewrite nat_dec_lt_false by lia.
    rewrite drop_ge by (rewrite length_imap; lia). reflexivity.
  - rewrite nat_dec_lt_true by lia.
    destruct (array_read_in_range a i) as [v Hv]; [lia|].
    rewrite Hv, nat_add_1, IH by lia.
    rewrite (drop_S _ _ _ (indexed_lookup _ _ _ Hv)). reflexivity.
Qed.

(** Below counter [n], the reverse loop folds the first [n] slots, right to
    left, with their indices. *)
Lemma rev_iterate_aux_upto a f : forall n x_3 (acc : B),
  n <= length (elems a) ->
  l___private_init_data_array_basic_2__rev__iterate__aux___main___rarg a f n x_3 acc =
  Some (foldr (fun p acc => f p.1 p.2 acc) acc (take n (imap pair (elems a)))).
Proof.
  induction n as [|n IH]; intros x_3 acc Hn; rewrite rev_iterate_aux_turn.
  - reflexivity.
  - change (lean.nat_dec_eq (S n) 0) with false. cbv iota.
    rewrite nat_sub_1.
    destruct (array_read_in_range a n) as [v Hv]; [lia|].
    rewrite Hv, IH by lia.
    rewrite (take_S_r _ _ _ (indexed_lookup _ _ _ Hv)), foldr_app. reflexivity.
Qed.

(** Above the size, the first read of the reverse loop is out of range. *)
Lemma rev_iterate_aux_beyond a f n x_3 (acc : B) :
  length (elems a) < n ->
  l___private_init_data_array_basic_2__rev__iterate__aux___main___rarg a f n x_3 acc
  = None.
Proof.
  intros Hn. rewrite rev_iterate_aux_turn.
  destruct n as [|n]; [lia|].
  change (lean.nat_dec_eq (S n) 0) with false. cbv iota.
  rewrite nat_sub_1. unfold lean.array_read.
  rewrite lookup_ge_None_2 by lia. reflexivity.
Qed.

(** The specialised loops against the engines they specialise. *)
Lemma foldl_aux_agree (x_0 a : Array A) (g : A -> B -> B) k : forall i (acc : B),
  length (elems a) - i = k ->
  l___private_init_data_array_basic_1__iterate__aux___main___at_array_foldl___spec__1___rarg
    x_0 g a i acc =
  l___private_init_data_array_basic_1__iterate__aux___main___rarg
    a (fun _ => g) i acc.
Proof.
  induction k as [|k IH]; intros i acc Hk;
    rewrite foldl_aux_turn, iterate_aux_turn.
  - rewrite nat_dec_lt_false by lia. reflexivity.
  - rewrite nat_dec_lt_true by lia.
    destruct (lean.array_read a i); [|reflexivity].
    rewrite nat_add_1. apply IH. lia.
Qed.

Lemma rev_foldl_aux_agree (x_0 a : Array A) (g : A -> B -> B) :
  forall n x_4 x_3 (acc : B),
  l___private_init_data_array_basic_2__rev__iterate__aux___main___at_array_rev__foldl___spec__1___rarg
    x_0 g a n x_4 acc =
  l___private_init_data_array_basic_2__rev__iterate__aux___main___rarg
    a (fun _ => g) n x_3 acc.
Proof.
  induction n as [|n IH]; intros x_4 x_3 acc;
    rewrite rev_foldl_aux_turn, rev_iterate_aux_turn.
  - reflexivity.
  - change (lean.nat_dec_eq (S n) 0) with false. cbv iota.
    rewrite nat_sub_1.
    destruct (lean.array_read a n); [|reflexivity].
    apply IH.
Qed.
End EngineFacts.

Lemma to_list_aux_agree {A : Type} (x_0 a : Array A) :
  forall n x_3 x_3' (acc : List A),
  l___private_init_data_array_basic_2__rev__iterate__aux___main___at_array_to__list___spec__1___rarg
    x_0 a n x_3 acc =
  l___private_init_data_array_basic_2__rev__iterate__aux___main___rarg
    a (fun _ v l => v :: l) n x_3' acc.
Proof.
  induction n as [|n IH]; intros x_3 x_3' acc;
    rewrite to_list_aux_turn, rev_iterate_aux_turn.
  - reflexivity.
  - change (lean.nat_dec_eq (S n) 0) with false. cbv iota.
    rewrite nat_sub_1.
    destruct (lean.array_read a n); [|reflexivity].
    apply IH.
Qed.

(** X1: [iterate] always returns a result: the callable applied once per
    index, in increasing index order, to the index, the element at that
    index and the accumulator so far. *)
Theorem X1_iterate_visits_indices_ascending {A B : Type}
    (a : Array A) (z : B) (f : nat -> A -> B -> B) :
  l_array_iterate___rarg a z f =
  Some (fold_left (fun acc p => f p.1 p.2 acc) (imap pair (elems a)) z).
Proof.
  unfold l_array_iterate___rarg.
  rewrite (iterate_aux_from a f (length (elems a))) by lia.
  reflexivity.
Qed.

(** X2: entered at any index [i], in range or not, [iterate_aux] returns a
    result: the fold over the slots from [i] on; entered at the size or
    beyond, it returns the accumulator as it is. *)
Theorem X2_iterate_aux_from_any_index {A B : Type}
    (a : Array A) (f : nat -> A -> B -> B) (i k : nat) (acc : B) :
  l___private_init_data_array_basic_1__iterate__aux___rarg a f i acc =
    Some (fold_left (fun acc p => f p.1 p.2 acc)
            (drop i (imap pair (elems a))) acc) /\
  l___private_init_data_array_basic_1__iterate__aux___rarg
    a f (lean.array_get_size a + k) acc = Some acc.
Proof.
  unfold l___private_init_data_array_basic_1__iterate__aux___rarg,
    lean.array_get_size.
  split.
  - apply (iterate_aux_from a f (length (elems a) - i)). reflexivity.
  - rewrite (iterate_aux_from a f 0) by lia.
    rewrite drop_ge by (rewrite length_imap; lia). reflexivity.
Qed.

(** X3: [rev_iterate] always returns a result: the callable applied once
    per index, in decreasing index order, to the index, the element at that
    index and the accumulator so far. *)
Theorem X3_rev_iterate_visits_indices_descending {A B : Type}
    (a : Array A) (z : B) (f : nat -> A -> B -> B) :
  l_array_rev__iterate___rarg a z f =
  Some (fold_right (fun p acc => f p.1 p.2 acc) z (imap pair (elems a))).
Proof.
  unfold l_array_rev__iterate___rarg, lean.array_get_size.
  rewrite rev_iterate_aux_upto by lia.
  rewrite take_ge by (rewrite length_imap; lia). reflexivity.
Qed.

(** X4: entered with a counter [n] not above the size, [rev_iterate_aux]
    returns the right fold over the first [n] slots, whatever its fourth
    argument is. *)
Theorem X4_rev_iterate_aux_counter_in_range {A B : Type}
    (a : Array A) (f : nat -> A -> B -> B) (n : nat) (x_3 : irrelevant A) (acc : B) :
  n <= lean.array_get_size a ->
  l___private_init_data_array_basic_2__rev__iterate__aux___rarg a f n x_3 acc =
  Some (fold_right (fun p acc => f p.1 p.2 acc) acc (take n (imap pair (elems a)))).
Proof.
  intros Hn. unfold l___private_init_data_array_basic_2__rev__iterate__aux___rarg.
  apply rev_iterate_aux_upto. exact Hn.
Qed.

Lemma X4_rev_iterate_aux_counter_in_range_witness :
  l___private_init_data_array_basic_2__rev__iterate__aux___rarg
    (MkArray [10; 20; 30]) (fun i v acc => (i, v) :: acc) 2 box_0 [] =
  Some [(0, 10); (1, 20)].
Proof.
  apply (X4_rev_iterate_aux_counter_in_range
           (MkArray [10; 20; 30]) (fun i v acc => (i, v) :: acc) 2 box_0 []).
  vm_compute. lia.
Defined.

(** X5: entered with a counter above the size, [rev_iterate_aux] has no
    test that stops it: its first read is outside the array, and the call
    has no result. *)
Theorem X5_rev_iterate_aux_counter_out_of_range {A B : Type}
    (a : Array A) (f : nat -> A -> B -> B) (n : nat) (x_3 : irrelevant A) (acc : B) :
  lean.array_get_size a < n ->
  l___private_init_data_array_basic_2__rev__iterate__aux___rarg a f n x_3 acc = None.
Proof.
  intros Hn. unfold l___private_init_data_array_basic_2__rev__iterate__aux___rarg.
  apply rev_iterate_aux_beyond. exact Hn.
Qed.

Lemma X5_rev_iterate_aux_counter_out_of_range_witness :
  l___private_init_data_array_basic_2__rev__iterate__aux___rarg
    (MkArray [10; 20; 30]) (fun _ v acc => v + acc) 4 box_0 0 = None.
Proof.
  apply (X5_rev_iterate_aux_counter_out_of_range
           (MkArray [10; 20; 30]) (fun _ v acc => v + acc) 4 box_0 0).
  vm_compute. lia.
Defined.

(** X6: [foldl] is [iterate], and [rev_foldl] is [rev_iterate], with the
    callable that ignores the index. *)
Theorem X6_folds_are_engines_ignoring_index {A B : Type}
    (a : Array A) (z : B) (f : A -> B -> B) :
  l_array_foldl___rarg a z f = l_array_iterate___rarg a z (fun _ => f) /\
  l_array_rev__foldl___rarg a z f = l_array_rev__iterate___rarg a z (fun _ => f).
Proof.
  split.
  - unfold l_array_foldl___rarg, l_array_iterate___rarg.
    apply (foldl_aux_agree a a f (length (elems a))). lia.
  - unfold l_array_rev__foldl___rarg, l_array_rev__iterate___rarg.
    apply rev_foldl_aux_agree.
Qed.

(** X7: [to_list] is [rev_iterate] from the empty list with the callable
    that conses the element onto the accumulator, which in turn is
    [rev_foldl] with [cons]. *)
Theorem X7_to_list_is_rev_iterate_cons {A : Type} (a : Array A) :
  l_array_to__list___rarg a =
    l_array_rev__iterate___rarg a [] (fun _ v l => v :: l) /\
  l_array_to__list___rarg a = l_array_rev__foldl___rarg a [] cons.
Proof.
  split.
  - unfold l_array_to__list___rarg, l_array_rev__iterate___rarg.
    apply to_list_aux_agree.
  - unfold l_array_to__list___rarg, l_array_rev__foldl___rarg.
    rewrite (to_list_aux_agree a a _ box_0 box_0).
    rewrite (rev_foldl_aux_agree a a cons _ box_0 box_0). reflexivity.
Qed.

(** ** Element-wise combinators, continued *)

Section ElementWiseMore.
Context {A : Type}.

Lemma foreach_aux3_turn (x_0 : Array A) (x_1 : nat -> A -> A) x_2 x_3 x_4 :
  l___private_init_data_array_basic_1__iterate__aux___main___at___private_init_data_array_basic_3__foreach__aux___spec__1___rarg
    x_0 x_1 x_2 x_3 x_4 =
  if lean.nat_dec_lt x_3 (lean.array_sz x_2)
  then match lean.array_read x_2 x_3 with
       | None => None
       | Some x_14 =>
           match lean.array_write x_4 x_3 (x_1 x_3 x_14) with
           | None => None
           | Some x_18 =>
               l___private_init_data_array_basic_1__iterate__aux___main___at___private_init_data_array_basic_3__foreach__aux___spec__1___rarg
                 x_0 x_1 x_2 (lean.nat_add x_3 1) x_18
           end
       end
  else Some x_4.
Proof.
  one_turn l___private_init_data_array_basic_1__iterate__aux___main___at___private_init_data_array_basic_3__foreach__aux___spec__1___rarg.
Qed.

(** The two compiled copies of the [foreach] loop agree turn by turn. *)
Lemma foreach_aux3_agree (x_0 x_0' : Array A) (f : nat -> A -> A) x_2 k :
  forall x_3 x_4,
  length (elems x_2) - x_3 = k ->
  l___private_init_data_array_basic_1__iterate__aux___main___at___private_init_data_array_basic_3__foreach__aux___spec__1___rarg
    x_0 f x_2 x_3 x_4 =
  l___private_init_data_array_basic_1__iterate__aux___main___at_array_foreach___spec__1___rarg
    x_0' f x_2 x_3 x_4.
Proof.
  induction k as [|k IH]; intros x_3 x_4 Hk;
    rewrite foreach_aux3_turn, foreach_aux_turn.
  - rewrite nat_dec_lt_false by lia. reflexivity.
  - rewrite nat_dec_lt_true by lia.
    destruct (lean.array_read x_2 x_3) as [x_14|]; [|reflexivity].
    destruct (lean.array_write x_4 x_3 (f x_3 x_14)) as [x_18|]; [|reflexivity].
    rewrite nat_add_1. apply IH. lia.
Qed.

(** [map_u_2082] on the slots, both branches at once. *)
Lemma map2_elems (f : A -> A -> A) (a b : Array A) :
  l_array_map_u_2082___rarg f a b =
  Some (MkArray
          (if lean.nat_dec_le (lean.array_get_size a) (lean.array_get_size b)
           then zip_with f (elems b) (elems a)
           else zip_with f (elems a) (elems b))).
Proof.
  unfold lean.nat_dec_le, lean.array_get_size.
  destruct (Nat.leb_spec (length (elems a)) (length (elems b))) as [Hle|Hlt].
  - apply map2_elems_le. exact Hle.
  - apply map2_elems_gt. exact Hlt.
Qed.
End ElementWiseMore.

(** X8: mapping [f] and then [g] is mapping their composition: [map f a]
    returns an array [r], and [map g r] is [map (g ∘ f) a]. *)
Theorem X8_map_compose {A : Type} (f g : A -> A) (a : Array A) :
  exists r,
    l_array_map___rarg f a = Some r /\
    l_array_map___rarg g r = l_array_map___rarg (fun v => g (f v)) a.
Proof.
  eexists. split; [apply map_elems|].
  rewrite !map_elems. simpl.
  rewrite <- list_fmap_compose. reflexivity.
Qed.

(** X9: [map f] is [foreach] with the function that ignores the index. *)
Theorem X9_map_is_foreach_ignoring_index {A : Type} (f : A -> A) (a : Array A) :
  l_array_map___rarg f a = l_array_foreach___rarg a (fun _ => f).
Proof.
  rewrite map_elems, foreach_elems.
  rewrite <- (imap_const f). reflexivity.
Qed.

(** X10: [foreach a f] returns an array that holds [f i a[i]] at every
    index [i] of [a] and has no other slot. *)
Theorem X10_foreach_slotwise {A : Type} (a : Array A) (f : nat -> A -> A) :
  exists r,
    l_array_foreach___rarg a f = Some r /\
    forall i, lean.array_read r i = f i <$> lean.array_read a i.
Proof.
  eexists. split; [apply foreach_elems|].
  intros i. unfold lean.array_read. simpl. apply list_lookup_imap.
Qed.

(** X11: [foreach] with the function that returns the element, whatever the
    index, returns the array unchanged; so on the empty array. *)
Theorem X11_foreach_identity {A : Type} (a : Array A) :
  l_array_foreach___rarg a (fun _ v => v) = Some a /\
  l_array_foreach___rarg (@MkArray A []) (fun _ v => v) = Some (MkArray []).
Proof.
  split.
  - rewrite foreach_elems. f_equal. apply array_eq. simpl.
    rewrite (imap_const id). apply list_fmap_id.
  - rewrite foreach_elems. reflexivity.
Qed.

(** X12: the private [foreach_aux] and [foreach] compute the same array. *)
Theorem X12_foreach_aux_is_foreach {A : Type} (a : Array A) (f : nat -> A -> A) :
  l___private_init_data_array_basic_3__foreach__aux___rarg a f =
  l_array_foreach___rarg a f.
Proof.
  unfold l___private_init_data_array_basic_3__foreach__aux___rarg,
    l_array_foreach___rarg.
  apply (foreach_aux3_agree a a f a (length (elems a))). lia.
Qed.

(** X13: [map_u_2082 f a b] always returns a result.  When [a] is not longer
    than [b], it is the array of [f b[i] a[i]] over the indices of [a];
    when [a] is longer, the array of [f a[i] b[i]] over the indices of
    [b]. *)
Theorem X13_map2_slots {A : Type} (f : A -> A -> A) (a b : Array A) :
  l_array_map_u_2082___rarg f a b =
  Some (MkArray
          (if lean.nat_dec_le (lean.array_get_size a) (lean.array_get_size b)
           then zip_with f (elems b) (elems a)
           else zip_with f (elems a) (elems b))).
Proof. apply map2_elems. Qed.

(** X14: for a commutative [f], [map_u_2082 f a b] is the array of
    [f a[i] b[i]] over the common indices, whichever array is shorter. *)
Theorem X14_map2_commutative {A : Type} (f : A -> A -> A) (a b : Array A) :
  (forall x y, f x y = f y x) ->
  l_array_map_u_2082___rarg f a b = Some (MkArray (zip_with f (elems a) (elems b))).
Proof.
  intros Hcomm. rewrite map2_elems.
  destruct (lean.nat_dec_le _ _); [|reflexivity].
  do 2 f_equal. rewrite <- (zip_with_flip f).
  apply zip_with_ext; [|reflexivity|reflexivity].
  intros x y. unfold flip. apply Hcomm.
Qed.

Lemma X14_map2_commutative_witness :
  l_array_map_u_2082___rarg Z.add (MkArray [1; 2; 3; 4]%Z) (MkArray [10; 20]%Z)
  = Some (MkArray [11; 22]%Z).
Proof.
  apply (X14_map2_commutative Z.add (MkArray [1; 2; 3; 4]%Z) (MkArray [10; 20]%Z)).
  intros x y. lia.
Defined.

(** X15: [map_u_2082 f a a] is [map] with [fun x => f x x]: no slot is
    dropped. *)
Theorem X15_map2_same_array {A : Type} (f : A -> A -> A) (a : Array A) :
  l_array_map_u_2082___rarg f a a = l_array_map___rarg (fun x => f x x) a.
Proof.
  rewrite map2_elems, map_elems.
  destruct (lean.nat_dec_le _ _); rewrite zip_with_diag; reflexivity.
Qed.

(** X16: [map] commutes with [to_list]: the list of [map f a] is the list
    of [a] with [f] applied to every element. *)
Theorem X16_map_to_list {A : Type} (f : A -> A) (a : Array A) :
  exists r l,
    l_array_map___rarg f a = Some r /\
    l_array_to__list___rarg a = Some l /\
    l_array_to__list___rarg r = Some (map f l).
Proof.
  exists (MkArray (f <$> elems a)), (elems a).
  split; [apply map_elems|]. split; apply to_list_elems.
Qed.

(** X17: a fold after a map is one fold: [foldl] over [map g a] with [f] is
    [foldl] over [a] with [fun v acc => f (g v) acc]. *)
Theorem X17_foldl_map_fusion {A B : Type}
    (g : A -> A) (f : A -> B -> B) (z : B) (a : Array A) :
  exists r,
    l_array_map___rarg g a = Some r /\
    l_array_foldl___rarg r z f = l_array_foldl___rarg a z (fun v acc => f (g v) acc).
Proof.
  eexists. split; [apply map_elems|].
  unfold l_array_foldl___rarg.
  rewrite (foldl_aux_from _ f _ (length (g <$> elems a))) by (simpl; lia).
  rewrite (foldl_aux_from _ _ _ (length (elems a))) by lia.
  simpl. rewrite !drop_0. f_equal.
  generalize z. induction (elems a) as [|v l IH]; intros z'; simpl.
  - reflexivity.
  - apply IH.
Qed.

(** ** The list bridge, continued *)

(** X18: [empty a] is true exactly when the list of [a] is empty, and
    [empty] of the array of a list is true exactly when the list is
    empty. *)
Theorem X18_empty_iff_no_element {A : Type} (a : Array A) (l : List A) :
  l_array_empty___rarg a =
    match l_array_to__list___rarg a with
    | Some [] => true
    | _ => false
    end /\
  l_array_empty___rarg (l_list_to__array___rarg l) =
    match l with
    | [] => true
    | _ :: _ => false
    end.
Proof.
  unfold l_array_empty___rarg, lean.nat_dec_eq, lean.array_get_size.
  rewrite to_list_elems, to_array_elems.
  split; [destruct (elems a) | destruct l]; reflexivity.
Qed.

(** X19: the array of a list [l] has the length of [l] as its size and the
    [i]-th element of [l] at index [i]; beyond, the read is undefined. *)
Theorem X19_to_array_size_and_slots {A : Type} (l : List A) :
  lean.array_get_size (l_list_to__array___rarg l) = length l /\
  forall i, lean.array_read (l_list_to__array___rarg l) i = l !! i.
Proof.
  unfold lean.array_get_size, lean.array_read.
  rewrite to_array_elems. split; reflexivity.
Qed.

(** X20: [to_array_aux l a] appends the elements of [l], in order, after
    the slots of [a]: its list is the list of [a] followed by [l]. *)
Theorem X20_to_array_aux_appends {A : Type} (l : List A) (a : Array A) :
  exists la,
    l_array_to__list___rarg a = Some la /\
    l_array_to__list___rarg (l_list_to__array__aux___rarg l a) = Some (la ++ l) /\
    lean.array_get_size (l_list_to__array__aux___rarg l a) =
      lean.array_get_size a + length l.
Proof.
  exists (elems a). split; [apply to_list_elems|].
  unfold l_list_to__array__aux___rarg, lean.array_get_size.
  rewrite to_list_elems, to_array_aux_elems, length_app. split; reflexivity.
Qed.

(** X21: [foldl] with [cons] from the empty list returns the list of the
    array reversed, while [rev_foldl] with [cons] returns it in order. *)
Theorem X21_foldl_cons_reverses {A : Type} (a : Array A) :
  exists l,
    l_array_to__list___rarg a = Some l /\
    l_array_foldl___rarg a [] cons = Some (rev l) /\
    l_array_rev__foldl___rarg a [] cons = Some l.
Proof.
  exists (elems a). split; [apply to_list_elems|]. split.
  - unfold l_array_foldl___rarg.
    rewrite (foldl_aux_from a cons a (length (elems a))) by lia.
    rewrite drop_0. f_equal.
    rewrite <- (app_nil_r (rev (elems a))).
    generalize (@nil A). induction (elems a) as [|v l IH]; intros acc; simpl.
    + reflexivity.
    + rewrite IH, <- app_assoc. reflexivity.
  - unfold l_array_rev__foldl___rarg, lean.array_get_size.
    rewrite rev_foldl_aux_upto by lia.
    rewrite take_ge by lia. f_equal.
    induction (elems a) as [|v l IH]; simpl; congruence.
Qed.

(** X22: a right fold is the left fold over the reversed array:
    [rev_foldl a z f] is [foldl] over the array of the reversed list of
    [a]. *)
Theorem X22_rev_foldl_is_foldl_reversed {A B : Type}
    (a : Array A) (z : B) (f : A -> B -> B) :
  exists l,
    l_array_to__list___rarg a = Some l /\
    l_array_rev__foldl___rarg a z f =
      l_array_foldl___rarg (l_list_to__array___rarg (rev l)) z f.
Proof.
  exists (elems a). split; [apply to_list_elems|].
  unfold l_array_rev__foldl___rarg, l_array_foldl___rarg, lean.array_get_size.
  rewrite rev_foldl_aux_upto by lia.
  rewrite (foldl_aux_from _ f _ (length (elems (l_list_to__array___rarg (rev (elems a))))))
    by lia.
  rewrite take_ge, drop_0, to_array_elems by lia.
  f_equal. rewrite <- fold_left_rev_right, rev_involutive. reflexivity.
Qed.

(** ** Characters *)

Section CharFacts.
Local Open Scope N_scope.

Lemma low_32_bits_exact : exact_below_2_32 low_32_bits.
Proof. intros n Hn. unfold low_32_bits. apply N.mod_small. exact Hn. Qed.

Lemma is_upper_true c : l_char_is__upper c = true <-> 65 <= c <= 90.
Proof.
  unfold l_char_is__upper.
  destruct (N.leb_spec 65 c), (N.leb_spec c 90); split; intros; try lia; congruence.
Qed.

Lemma is_lower_true c : l_char_is__lower c = true <-> 97 <= c <= 122.
Proof.
  unfold l_char_is__lower.
  destruct (N.leb_spec 97 c), (N.leb_spec c 122); split; intros; try lia; congruence.
Qed.

Lemma is_digit_true c : l_char_is__digit c = true <-> 48 <= c <= 57.
Proof.
  unfold l_char_is__digit.
  destruct (N.leb_spec 48 c), (N.leb_spec c 57); split; intros; try lia; congruence.
Qed.

Lemma is_whitespace_true c :
  l_char_is__whitespace c = true <-> c = 32 \/ c = 9 \/ c = 10.
Proof.
  unfold l_char_is__whitespace.
  destruct (N.eqb_spec c 32), (N.eqb_spec c 9), (N.eqb_spec c 10);
    split; intros; try lia; congruence.
Qed.

(** [to_lower] on the numbers. *)
Lemma to_lower_value uint32_of_nat c :
  exact_below_2_32 uint32_of_nat ->
  l_char_to__lower uint32_of_nat c = if l_char_is__upper c then c + 32 else c.
Proof.
  intros Hex.
  unfold l_char_to__lower, lean.nat_dec_le, lean.nat_add, uint32_to_nat.
  destruct (l_char_is__upper c) eqn:Hup.
  - apply is_upper_true in Hup.
    rewrite (proj2 (Nat.leb_le 65 (N.to_nat c))) by lia.
    rewrite (proj2 (Nat.leb_le (N.to_nat c) 90)) by lia.
    unfold l_char_of__nat. rewrite Hex by lia.
    replace (N.of_nat (N.to_nat c + 32)) with (c + 32) by lia.
    destruct (N.ltb_spec (c + 32) 55296); [reflexivity | lia].
  - assert (Hout : ~ (65 <= c <= 90)) by (rewrite <- is_upper_true; congruence).
    destruct (Nat.leb_spec 65 (N.to_nat c)); [|reflexivity].
    destruct (Nat.leb_spec (N.to_nat c) 90); [lia|reflexivity].
Qed.

(** Masking with the low byte first does not change a mask within it. *)
Lemma land_low_byte c m : N.land 255 m = m -> N.land (N.land c 255) m = N.land c m.
Proof. intros H. rewrite <- N.land_assoc, H. reflexivity. Qed.

Lemma land_below c k m : c < 2 ^ k -> N.land (N.ones k) m = 0 -> N.land c m = 0.
Proof.
  intros Hc Hm.
  rewrite <- (N.mod_small c (2 ^ k)) by exact Hc.
  rewrite <- N.land_ones, <- N.land_assoc, Hm. apply N.land_0_r.
Qed.
End CharFacts.

(** X23: whatever number it is given, [char.of_nat] returns a Unicode scalar
    value: below 55296 (the first surrogate), or above 57343 (the last
    surrogate) and below 1114112. *)
Theorem X23_of_nat_is_scalar_value (uint32_of_nat : nat -> N) (n : nat) :
  (l_char_of__nat uint32_of_nat n < 55296 \/
   57343 < l_char_of__nat uint32_of_nat n < 1114112)%N.
Proof.
  unfold l_char_of__nat.
  destruct (N.ltb_spec (uint32_of_nat n) 55296); [lia|].
  destruct (N.ltb_spec 57343 (uint32_of_nat n)); [|lia].
  destruct (N.ltb_spec (uint32_of_nat n) 1114112); lia.
Qed.

(** X24: for a scalar value [c], [of_nat (to_nat c)] is [c]. *)
Theorem X24_of_nat_to_nat (uint32_of_nat : nat -> N) (c : N) :
  exact_below_2_32 uint32_of_nat ->
  (c < 55296 \/ 57343 < c < 1114112)%N ->
  l_char_of__nat uint32_of_nat (l_char_to__nat c) = c.
Proof.
  intros Hex Hc. unfold l_char_of__nat, l_char_to__nat, uint32_to_nat.
  rewrite Hex by lia. rewrite N2Nat.id.
  destruct (N.ltb_spec c 55296); [reflexivity|].
  destruct (N.ltb_spec 57343 c); [|lia].
  destruct (N.ltb_spec c 1114112); [reflexivity|lia].
Qed.

Lemma X24_of_nat_to_nat_witness :
  l_char_of__nat low_32_bits (l_char_to__nat 8364%N) = 8364%N.
Proof.
  apply (X24_of_nat_to_nat low_32_bits 8364%N).
  - exact low_32_bits_exact.
  - lia.
Defined.

(** X25: a number in the surrogate range 55296..57343, or from 1114112 up
    to what 32 bits hold, is not a scalar value: [of_nat] returns 0 for
    it. *)
Theorem X25_of_nat_invalid_is_zero (uint32_of_nat : nat -> N) (n : nat) :
  exact_below_2_32 uint32_of_nat ->
  (55296 <= N.of_nat n <= 57343 \/ 1114112 <= N.of_nat n < 4294967296)%N ->
  l_char_of__nat uint32_of_nat n = 0%N.
Proof.
  intros Hex Hn. unfold l_char_of__nat. rewrite Hex by lia.
  destruct (N.ltb_spec (N.of_nat n) 55296); [lia|].
  destruct (N.ltb_spec 57343 (N.of_nat n)); [|reflexivity].
  destruct (N.ltb_spec (N.of_nat n) 1114112); [lia|reflexivity].
Qed.

Lemma X25_of_nat_invalid_is_zero_witness :
  l_char_of__nat low_32_bits (N.to_nat 55296) = 0%N.
Proof.
  apply (X25_of_nat_invalid_is_zero low_32_bits (N.to_nat 55296)).
  - exact low_32_bits_exact.
  - lia.
Defined.

(** X26: [to_lower] adds 32 to the upper-case letters 65..90 and leaves
    every other value as it is. *)
Theorem X26_to_lower_value (uint32_of_nat : nat -> N) (c : N) :
  exact_below_2_32 uint32_of_nat ->
  l_char_to__lower uint32_of_nat c = if l_char_is__upper c then (c + 32)%N else c.
Proof. apply to_lower_value. Qed.

Lemma X26_to_lower_value_witness :
  l_char_to__lower low_32_bits 65%N = 97%N.
Proof.
  apply (X26_to_lower_value low_32_bits 65%N).
  exact low_32_bits_exact.
Defined.

(** X27: the result of [to_lower] is never an upper-case letter; it is a
    lower-case letter exactly when the argument is a letter; and
    [to_lower] applied twice is [to_lower]. *)
Theorem X27_to_lower_result (uint32_of_nat : nat -> N) (c : N) :
  exact_below_2_32 uint32_of_nat ->
  l_char_is__upper (l_char_to__lower uint32_of_nat c) = false /\
  l_char_is__lower (l_char_to__lower uint32_of_nat c) = l_char_is__alpha c /\
  l_char_to__lower uint32_of_nat (l_char_to__lower uint32_of_nat c) =
    l_char_to__lower uint32_of_nat c.
Proof.
  intros Hex.
  rewrite (to_lower_value uint32_of_nat (l_char_to__lower uint32_of_nat c) Hex).
  rewrite (to_lower_value uint32_of_nat c Hex).
  unfold l_char_is__alpha.
  destruct (l_char_is__upper c) eqn:Hup.
  - apply is_upper_true in Hup.
    assert (Hnot : l_char_is__upper (c + 32) = false).
    { destruct (l_char_is__upper (c + 32)) eqn:E; [|reflexivity].
      apply is_upper_true in E. lia. }
    rewrite Hnot. repeat split.
    apply is_lower_true. lia.
  - rewrite Hup. repeat split.
Qed.

Lemma X27_to_lower_result_witness :
  l_char_is__upper (l_char_to__lower low_32_bits 90%N) = false /\
  l_char_is__lower (l_char_to__lower low_32_bits 90%N) = l_char_is__alpha 90%N /\
  l_char_to__lower low_32_bits (l_char_to__lower low_32_bits 90%N) =
    l_char_to__lower low_32_bits 90%N.
Proof.
  apply (X27_to_lower_result low_32_bits 90%N).
  exact low_32_bits_exact.
Defined.

(** X28: no value is in two of the classes upper-case letter, lower-case
    letter, digit and whitespace; [is_alpha] is [is_upper] or [is_lower],
    and [is_alphanum] is [is_alpha] or [is_digit]. *)
Theorem X28_character_classes (c : N) :
  l_char_is__upper c && l_char_is__lower c = false /\
  l_char_is__upper c && l_char_is__digit c = false /\
  l_char_is__upper c && l_char_is__whitespace c = false /\
  l_char_is__lower c && l_char_is__digit c = false /\
  l_char_is__lower c && l_char_is__whitespace c = false /\
  l_char_is__digit c && l_char_is__whitespace c = false /\
  l_char_is__alpha c = l_char_is__upper c || l_char_is__lower c /\
  l_char_is__alphanum c =
    l_char_is__upper c || l_char_is__lower c || l_char_is__digit c.
Proof.
  assert (Hdisj : forall p q : bool, (p = true -> q = true -> False) -> p && q = false).
  { intros [] []; simpl; intros H; try reflexivity. exfalso. apply H; reflexivity. }
  repeat split.
  - apply Hdisj. rewrite is_upper_true, is_lower_true. lia.
  - apply Hdisj. rewrite is_upper_true, is_digit_true. lia.
  - apply Hdisj. rewrite is_upper_true, is_whitespace_true. lia.
  - apply Hdisj. rewrite is_lower_true, is_digit_true. lia.
  - apply Hdisj. rewrite is_lower_true, is_whitespace_true. lia.
  - apply Hdisj. rewrite is_digit_true, is_whitespace_true. lia.
  - unfold l_char_is__alpha. destruct (l_char_is__upper c); reflexivity.
  - unfold l_char_is__alphanum, l_char_is__alpha.
    destruct (l_char_is__upper c), (l_char_is__lower c); reflexivity.
Qed.

(** X29: [utf8_size] is 1 for every value below 128. *)
Theorem X29_utf8_size_ascii (c : N) :
  (c < 128)%N ->
  l_char_utf8__size c = 1%N.
Proof.
  intros Hc. unfold l_char_utf8__size.
  rewrite (land_below c 7 128) by (try reflexivity; exact Hc).
  reflexivity.
Qed.

Lemma X29_utf8_size_ascii_witness : l_char_utf8__size 97%N = 1%N.
Proof. apply (X29_utf8_size_ascii 97%N). lia. Defined.

(** X30: [utf8_size] looks at the low eight bits only: unless they are all
    set, the size of a value is the size of its low byte, and it is at most
    6. *)
Theorem X30_utf8_size_low_byte (c : N) :
  N.land c 255 <> 255%N ->
  l_char_utf8__size c = l_char_utf8__size (N.land c 255) /\
  (l_char_utf8__size c <= 6)%N.
Proof.
  intros Hlow.
  assert (Hc : c <> 255%N) by (intros ->; apply Hlow; reflexivity).
  unfold l_char_utf8__size.
  rewrite !land_low_byte by reflexivity.
  apply N.eqb_neq in Hlow, Hc. rewrite Hlow, Hc.
  split; [reflexivity|].
  repeat (match goal with |- context [if ?b then _ else _] => destruct b end);
    lia.
Qed.

Lemma X30_utf8_size_low_byte_witness :
  l_char_utf8__size 8364%N = l_char_utf8__size (N.land 8364 255) /\
  (l_char_utf8__size 8364%N <= 6)%N.
Proof.
  apply (X30_utf8_size_low_byte 8364%N).
  vm_compute. discriminate.
Defined.
